(** * The objective-function interface of xgboost

    A shallow embedding of [include/xgboost/objective.h]: the abstract class
    [ObjFunction], the bodies it gives to its optional virtual methods, and
    the registry entry type behind [XGBOOST_REGISTER_OBJECTIVE].

    Conventions.
    - A [void] method that writes through a pointer argument is a function
      from the old contents to the new contents.
    - [LOG(FATAL)] ends the call: methods that can reach it return an
      [outcome].
    - A concrete objective is a class deriving from [ObjFunction].  It is
      described by a table [ObjClass] holding the bodies of the pure virtual
      methods and, for each optional method, either an overriding body or
      nothing.  A virtual call consults the table and falls back on the body
      written in [ObjFunction]. *)

From Stdlib Require Import ZArith NArith List Lia.
From Stdlib Require Import Floats.SpecFloat.
From stdpp Require Import base gmap strings list.

Open Scope string_scope.

(** ** Scalar and container types used by the header *)

(** [bst_float] is a single-precision float; its values are written as
    IEEE-754 data ([S754_zero], [S754_infinity], [S754_nan], [S754_finite]). *)
Definition bst_float : Type := spec_float.

(** [bst_node_t] is a signed 32-bit node index. *)
Definition bst_node_t : Type := Z.

(** The contents of a [HostDeviceVector<T>]: which side of the host/device
    pair holds them plays no part in this header. *)
Definition HostDeviceVector (T : Type) : Type := list T.

(** The argument of [Configure]:
    [std::vector<std::pair<std::string, std::string>>]. *)
Definition Args : Type := list (string * string).

(** Modelled from the spec: [GradientPair] comes from [xgboost/base.h], which
    is not part of this header; the pair of a first-order and a second-order
    gradient. *)
Record GradientPair : Type := MkGradientPair {
  grad : bst_float;
  hess : bst_float
}.

(** Modelled from the spec: the two-dimensional label tensor of
    [xgboost/data.h]; a flat buffer with its row and column counts. *)
Record Tensor : Type := MkTensor {
  Values : list bst_float;
  shape_ : N * N
}.

(** [Shape(i)] of a two-dimensional tensor: axis 0 counts rows, axis 1 counts
    columns. *)
Definition Shape (t : Tensor) (axis : nat) : N :=
  match axis with
  | O => fst (shape_ t)
  | S _ => snd (shape_ t)
  end.

(** Modelled from the spec: [MetaInfo] comes from [xgboost/data.h]; labels,
    weights, group boundaries and base margins. *)
Record MetaInfo : Type := MkMetaInfo {
  labels : Tensor;
  weights_ : HostDeviceVector bst_float;
  group_ptr_ : list N;
  base_margin_ : HostDeviceVector bst_float
}.

(** Modelled from the spec: [ObjInfo] comes from [xgboost/task.h]; the kind of
    learning task an objective serves. *)
Inductive TaskKind : Type := kRegression | kClassification | kRanking.

Record ObjInfo : Type := MkObjInfo {
  task : TaskKind;
  order_dependent : bool;
  monotonic_postprocess : bool
}.

(** Modelled from the spec: [RegTree] is only forward-declared in this header
    ([class RegTree;]).  A tree is its node array; an inner node carries a
    split threshold and two child indices, a leaf carries a value. *)
Inductive Node : Type :=
| Split (threshold : bst_float) (cleft cright : bst_node_t)
| Leaf (leaf_value : bst_float).

Definition RegTree : Type := list Node.



(** [GenericParameter const*]: the address of the shared runtime context;
    [None] is the null pointer. *)
Definition GenericParameterPtr : Type := option positive.

(** ** Fatal errors *)

(** What ends a call: the text streamed into [LOG(FATAL)] where the header
    gives it, and the error categories of the spec (lookup, registration,
    shape mismatch) where the failing code is outside the header.  The last
    case stands for a call through a pointer to no object. *)
Inductive FatalError : Type :=
| LogFatal (msg : string)
| UnknownObjective (name : string) (known : list string)
| AlreadyRegistered (name : string)
| ShapeMismatch (n_labels n_preds : nat)
| DanglingObjective (addr : positive).

Inductive outcome (A : Type) : Type :=
| Ret (a : A)
| Abort (e : FatalError).

Arguments Ret {A} a.
Arguments Abort {A} e.

(** [outcome] is a monad; [x ← m; k] and [m ;; k] sequence two steps and stop
    at the first [Abort]. *)
#[export] Instance outcome_ret : MRet outcome := fun A a => Ret a.

#[export] Instance outcome_bind : MBind outcome :=
  fun A B k m =>
    match m with
    | Ret a => k a
    | Abort e => Abort e
    end.

(** [LOG(FATAL) << msg;] *)
Definition LOG_FATAL (msg : string) : outcome unit := Abort (LogFatal msg).

(** [if (c) { body }] for a body that may abort. *)
Definition when (c : bool) (body : outcome unit) : outcome unit :=
  if c then body else Ret tt.

(** ** The class [ObjFunction] *)

(** The data members of an object: the protected [ctx_] of [ObjFunction] and
    the fields a derived class adds. *)
Record This (Fields : Type) : Type := MkThis {
  ctx_ : GenericParameterPtr;
  fields : Fields
}.

Arguments MkThis {Fields} ctx_ fields.
Arguments ctx_ {Fields} t.
Arguments fields {Fields} t.

(** A class deriving from [ObjFunction].  The four pure virtual methods
    ([= 0] in the header) must be given; each optional method is either
    overridden or inherited.  Methods declared [const] read the object, the
    others also return it. *)
Record ObjClass : Type := MkObjClass {
  Fields : Type;
  Configure_body : This Fields -> Args -> outcome (This Fields);
  GetGradient_body :
    This Fields -> HostDeviceVector bst_float -> MetaInfo -> Z ->
    HostDeviceVector GradientPair ->
    outcome (This Fields * HostDeviceVector GradientPair);
  DefaultEvalMetric_body : This Fields -> string;
  Task_body : This Fields -> ObjInfo;
  PredTransform_override :
    option (This Fields -> HostDeviceVector bst_float -> HostDeviceVector bst_float);
  EvalTransform_override :
    option (This Fields -> HostDeviceVector bst_float ->
            This Fields * HostDeviceVector bst_float);
  ProbToMargin_override : option (This Fields -> bst_float -> bst_float);
  Targets_override : option (This Fields -> MetaInfo -> outcome N);
  UpdateTreeLeaf_override :
    option (This Fields -> HostDeviceVector bst_node_t -> MetaInfo ->
            HostDeviceVector bst_float -> RegTree -> RegTree)
}.

(** An object seen through an [ObjFunction*]: its dynamic class and its data
    members. *)
Record ObjFunction : Type := MkObjFunction {
  vptr : ObjClass;
  this : This (Fields vptr)
}.

Definition with_this (o : ObjFunction) (t : This (Fields (vptr o))) : ObjFunction :=
  {| vptr := vptr o; this := t |}.

(** *** Bodies written in the header, and the virtual calls that reach them *)

(** [virtual void PredTransform(HostDeviceVector<bst_float>* ) const {}]:
    the body is empty, the buffer behind the pointer keeps its contents. *)
Definition ObjFunction_PredTransform (io_preds : HostDeviceVector bst_float)
  : HostDeviceVector bst_float :=
  io_preds.

Definition PredTransform (o : ObjFunction) (io_preds : HostDeviceVector bst_float)
  : HostDeviceVector bst_float :=
  match PredTransform_override (vptr o) with
  | Some body => body (this o) io_preds
  | None => ObjFunction_PredTransform io_preds
  end.

(** [virtual void EvalTransform(HostDeviceVector<bst_float> *io_preds) {
      this->PredTransform(io_preds);
    }] *)
Definition ObjFunction_EvalTransform (o : ObjFunction)
    (io_preds : HostDeviceVector bst_float)
  : ObjFunction * HostDeviceVector bst_float :=
  (o, PredTransform o io_preds).

Definition EvalTransform (o : ObjFunction) (io_preds : HostDeviceVector bst_float)
  : ObjFunction * HostDeviceVector bst_float :=
  match EvalTransform_override (vptr o) with
  | Some body =>
      let r := body (this o) io_preds in (with_this o (fst r), snd r)
  | None => ObjFunction_EvalTransform o io_preds
  end.

(** [virtual bst_float ProbToMargin(bst_float base_score) const {
      return base_score;
    }] *)
Definition ObjFunction_ProbToMargin (base_score : bst_float) : bst_float :=
  base_score.

Definition ProbToMargin (o : ObjFunction) (base_score : bst_float) : bst_float :=
  match ProbToMargin_override (vptr o) with
  | Some body => body (this o) base_score
  | None => ObjFunction_ProbToMargin base_score
  end.

(** [virtual uint32_t Targets(MetaInfo const& info) const {
      if (info.labels.Shape(1) > 1) {
        LOG(FATAL) << "multioutput is not supported by current objective function";
      }
      return 1;
    }] *)
Definition ObjFunction_Targets (info : MetaInfo) : outcome N :=
  when (1 <? Shape (labels info) 1)%N
    (LOG_FATAL "multioutput is not supported by current objective function") ;;
  Ret 1%N.

Definition Targets (o : ObjFunction) (info : MetaInfo) : outcome N :=
  match Targets_override (vptr o) with
  | Some body => body (this o) info
  | None => ObjFunction_Targets info
  end.



(** The pure virtual methods: a call always lands in the derived class. *)
Definition Configure (o : ObjFunction) (args : Args) : outcome ObjFunction :=
  t ← Configure_body (vptr o) (this o) args;
  Ret (with_this o t).

Definition GetGradient (o : ObjFunction) (preds : HostDeviceVector bst_float)
    (info : MetaInfo) (iteration : Z) (out_gpair : HostDeviceVector GradientPair)
  : outcome (ObjFunction * HostDeviceVector GradientPair) :=
  r ← GetGradient_body (vptr o) (this o) preds info iteration out_gpair;
  Ret (with_this o (fst r), snd r).

Definition DefaultEvalMetric (o : ObjFunction) : string :=
  DefaultEvalMetric_body (vptr o) (this o).

Definition Task (o : ObjFunction) : ObjInfo :=
  Task_body (vptr o) (this o).

(** *** Deriving a class

    [class D : public C] with one more overriding method; everything else is
    inherited from [C]. *)
Definition override_PredTransform (C : ObjClass)
    (body : This (Fields C) -> HostDeviceVector bst_float -> HostDeviceVector bst_float)
  : ObjClass :=
  {| Fields := Fields C;
     Configure_body := Configure_body C;
     GetGradient_body := GetGradient_body C;
     DefaultEvalMetric_body := DefaultEvalMetric_body C;
     Task_body := Task_body C;
     PredTransform_override := Some body;
     EvalTransform_override := EvalTransform_override C;
     ProbToMargin_override := ProbToMargin_override C;
     Targets_override := Targets_override C;
     UpdateTreeLeaf_override := UpdateTreeLeaf_override C |}.

Definition override_Targets (C : ObjClass)
    (body : This (Fields C) -> MetaInfo -> outcome N) : ObjClass :=
  {| Fields := Fields C;
     Configure_body := Configure_body C;
     GetGradient_body := GetGradient_body C;
     DefaultEvalMetric_body := DefaultEvalMetric_body C;
     Task_body := Task_body C;
     PredTransform_override := PredTransform_override C;
     EvalTransform_override := EvalTransform_override C;
     ProbToMargin_override := ProbToMargin_override C;
     Targets_override := Some body;
     UpdateTreeLeaf_override := UpdateTreeLeaf_override C |}.



(** ** The registry and [ObjFunction::Create] *)

(** [struct ObjFunctionReg
      : public dmlc::FunctionRegEntryBase<ObjFunctionReg,
                                          std::function<ObjFunction* ()> >].
    The entry carries the name it was registered under, the text given to
    [describe] and the factory given to [set_body].  The factory builds the
    object; storing it at a new address is left to the caller. *)
Record ObjFunctionReg : Type := MkObjFunctionReg {
  name : string;
  description : string;
  body : unit -> ObjFunction
}.

(** Modelled from the spec: section 4.1 gives an objective two states,
    unconfigured and configured, with [Configure] leading from the first to
    the second.  An [Instance] is an object that lives behind an
    [ObjFunction*] together with that state. *)
Record Instance : Type := MkInstance {
  object : ObjFunction;
  configured : bool
}.

(** The process: the registry filled at start-up and the objects created so
    far, by address. *)
Record Process : Type := MkProcess {
  registry : gmap string ObjFunctionReg;
  heap : gmap positive Instance
}.

(** The names the registry knows. *)
Definition ListAllNames (reg : gmap string ObjFunctionReg) : list string :=
  (map_to_list reg).*1.

(** Modelled from the spec: [__REGISTER__] belongs to [dmlc/registry.h], which
    the header only includes.  Section 4.2: registering a name that is already
    registered fails at registration time; otherwise the registry maps the
    name to the new factory. *)
Definition Register (nm descr : string) (factory : unit -> ObjFunction)
    (reg : gmap string ObjFunctionReg) : outcome (gmap string ObjFunctionReg) :=
  match reg !! nm with
  | Some _ => Abort (AlreadyRegistered nm)
  | None =>
      Ret (<[nm := {| name := nm; description := descr; body := factory |}]> reg)
  end.

(** [pobj->ctx_ = tparam] *)
Definition bind_context (o : ObjFunction) (tparam : GenericParameterPtr) : ObjFunction :=
  with_this o {| ctx_ := tparam; fields := fields (this o) |}.

(** Modelled from the spec: the header declares
    [static ObjFunction* Create(const std::string& name,
                                GenericParameter const* tparam)]
    and its body is in a source file that is not part of the header.
    Section 4.2: look the name up; fail with a lookup error that lists the
    known names when it is absent; otherwise run the factory, bind the new
    object to the context and hand it, unconfigured, to the caller. *)
Definition Create (nm : string) (tparam : GenericParameterPtr) (σ : Process)
  : outcome (positive * Process) :=
  match registry σ !! nm with
  | None => Abort (UnknownObjective nm (ListAllNames (registry σ)))
  | Some e =>
      let pobj := fresh (dom (heap σ)) in
      let obj := bind_context (body e tt) tparam in
      Ret (pobj,
           {| registry := registry σ;
              heap := <[pobj := {| object := obj; configured := false |}]> (heap σ) |})
  end.

(** [pobj->Configure(args)] on the object at address [pobj]: the object is
    replaced by what its [Configure] leaves and counts as configured from then
    on; a failing [Configure] leaves the process as it was. *)
Definition Configure_at (pobj : positive) (args : Args) (σ : Process)
  : outcome Process :=
  match heap σ !! pobj with
  | None => Abort (DanglingObjective pobj)
  | Some i =>
      o ← Configure (object i) args;
      Ret {| registry := registry σ;
             heap := <[pobj := {| object := o; configured := true |}]> (heap σ) |}
  end.

(** ** Concrete objectives *)

(** Single-precision arithmetic: 24 bits of precision, exponents below 128. *)
Definition f32_sub : bst_float -> bst_float -> bst_float := SFsub 24 128.
Definition f32_mul : bst_float -> bst_float -> bst_float := SFmul 24 128.
Definition f32_one : bst_float := SFone 24 128.
Definition f32_zero : bst_float := S754_zero false.

(** The weight of row [i]; all rows weigh one when no weights are given. *)
Definition GetWeight (info : MetaInfo) (i : nat) : bst_float :=
  match weights_ info with
  | [] => f32_one
  | w => nth i w f32_one
  end.

(** Modelled from the spec: the squared-error objective is a source file of
    its own.  Section 8: the gradient is prediction minus label and the
    Hessian is one, both multiplied by the weight of the row; a label buffer
    whose length differs from the predictions is a fatal shape mismatch. *)
Definition SquaredError_GetGradient (preds : HostDeviceVector bst_float)
    (info : MetaInfo) : outcome (HostDeviceVector GradientPair) :=
  when (negb (length (Values (labels info)) =? length preds)%nat)
    (Abort (ShapeMismatch (length (Values (labels info))) (length preds))) ;;
  Ret (imap (fun i p =>
               let y := nth i (Values (labels info)) f32_zero in
               let w := GetWeight info i in
               {| grad := f32_mul (f32_sub p y) w; hess := f32_mul f32_one w |})
            preds).

(** Modelled from the spec: the class of that objective.  It inherits every
    optional method; its object remembers the options it was last configured
    with, and an empty option set changes nothing (section 4.1).  The spec
    does not name its default metric; "rmse" stands for it. *)
Definition SquaredError : ObjClass :=
  {| Fields := Args;
     Configure_body := fun t args =>
       match args with
       | [] => Ret t
       | _ => Ret {| ctx_ := ctx_ t; fields := args |}
       end;
     GetGradient_body := fun t preds info _ _ =>
       g ← SquaredError_GetGradient preds info; Ret (t, g);
     DefaultEvalMetric_body := fun _ => "rmse";
     Task_body := fun _ =>
       {| task := kRegression; order_dependent := false;
          monotonic_postprocess := false |};
     PredTransform_override := None;
     EvalTransform_override := None;
     ProbToMargin_override := None;
     Targets_override := None;
     UpdateTreeLeaf_override := None |}.

(** [new SquaredError()] as a registry factory would build it. *)
Definition new_SquaredError (_ : unit) : ObjFunction :=
  {| vptr := SquaredError; this := {| ctx_ := None; fields := [] |} |}.

(** A class that overrides [PredTransform] alone: it reports magnitudes. *)
Definition AbsoluteOutput : ObjClass :=
  override_PredTransform SquaredError (fun _ io_preds => map SFabs io_preds).

Definition new_AbsoluteOutput (_ : unit) : ObjFunction :=
  {| vptr := AbsoluteOutput; this := {| ctx_ := None; fields := [] |} |}.

(** A class that overrides [Targets] alone and accepts every column count. *)
Definition MultiTarget : ObjClass :=
  override_Targets SquaredError
    (fun _ info => Ret (N.max 1 (Shape (labels info) 1))).

Definition new_MultiTarget (_ : unit) : ObjFunction :=
  {| vptr := MultiTarget; this := {| ctx_ := None; fields := [] |} |}.





(** Some single-precision values and inputs used in the examples below. *)
Definition f32_two : bst_float := S754_finite false 8388608 (-22).
Definition f32_three : bst_float := S754_finite false 12582912 (-22).
Definition f32_minus_one : bst_float := S754_finite true 8388608 (-23).

Definition labels_of (cols : N) (v : list bst_float) : MetaInfo :=
  {| labels := {| Values := v; shape_ := (N.of_nat (length v), cols) |};
     weights_ := []; group_ptr_ := []; base_margin_ := [] |}.


(** The registry after the start-up registrations of the two named classes. *)
Definition startup_registry : gmap string ObjFunctionReg :=
  <["reg:squarederror" :=
      {| name := "reg:squarederror"; description := "Regression with squared error.";
         body := new_SquaredError |}]>
  (<["reg:absoluteoutput" :=
      {| name := "reg:absoluteoutput"; description := "Squared error, magnitudes reported.";
         body := new_AbsoluteOutput |}]> ∅).

Definition startup : Process := {| registry := startup_registry; heap := ∅ |}.

(** ** Callers and the registration macro *)

(** A caller that runs [obj->EvalTransform(&io_preds)] [n] times in a row on
    the same object and the same buffer. *)
Fixpoint EvalTransform_times (n : nat) (o : ObjFunction)
    (io_preds : HostDeviceVector bst_float)
  : ObjFunction * HostDeviceVector bst_float :=
  match n with
  | O => (o, io_preds)
  | S k =>
      let r := EvalTransform o io_preds in
      EvalTransform_times k (fst r) (snd r)
  end.

(** What one use of the registration macro leaves in a translation unit: a
    static reference under an identifier of its own, initialised by the
    registry call on a name. *)
Record StaticRegistration : Type := MkStaticRegistration {
  identifier : string;
  registered_as : string
}.

(** [#define XGBOOST_REGISTER_OBJECTIVE(UniqueId, Name)
      static DMLC_ATTRIBUTE_UNUSED ::xgboost::ObjFunctionReg &
      __make_ ## ObjFunctionReg ## _ ## UniqueId ## __ =
          ::dmlc::Registry< ::xgboost::ObjFunctionReg>::Get()->__REGISTER__(Name)]
    The identifier is pasted from the tokens [__make_], [ObjFunctionReg], [_],
    the macro argument and [__]. *)
Definition XGBOOST_REGISTER_OBJECTIVE (UniqueId Name : string) : StaticRegistration :=
  {| identifier :=
       String.append "__make_"
         (String.append "ObjFunctionReg"
            (String.append "_" (String.append UniqueId "__")));
     registered_as := Name |}.

(** * Properties *)

(** ** Inherited methods run the body written in the header *)

Lemma PredTransform_inherited (o : ObjFunction) (io_preds : HostDeviceVector bst_float) :
  PredTransform_override (vptr o) = None ->
  PredTransform o io_preds = ObjFunction_PredTransform io_preds.
Proof. intros H. unfold PredTransform. now rewrite H. Qed.

Lemma PredTransform_overridden (o : ObjFunction) body (io_preds : HostDeviceVector bst_float) :
  PredTransform_override (vptr o) = Some body ->
  PredTransform o io_preds = body (this o) io_preds.
Proof. intros H. unfold PredTransform. now rewrite H. Qed.

Lemma EvalTransform_inherited (o : ObjFunction) (io_preds : HostDeviceVector bst_float) :
  EvalTransform_override (vptr o) = None ->
  EvalTransform o io_preds = ObjFunction_EvalTransform o io_preds.
Proof. intros H. unfold EvalTransform. now rewrite H. Qed.

Lemma ProbToMargin_inherited (o : ObjFunction) (base_score : bst_float) :
  ProbToMargin_override (vptr o) = None ->
  ProbToMargin o base_score = ObjFunction_ProbToMargin base_score.
Proof. intros H. unfold ProbToMargin. now rewrite H. Qed.

Lemma Targets_inherited (o : ObjFunction) (info : MetaInfo) :
  Targets_override (vptr o) = None ->
  Targets o info = ObjFunction_Targets info.
Proof. intros H. unfold Targets. now rewrite H. Qed.


(** ** The two branches of [ObjFunction::Targets] *)

Lemma ObjFunction_Targets_one (info : MetaInfo) :
  (Shape (labels info) 1 <= 1)%N -> ObjFunction_Targets info = Ret 1%N.
Proof.
  intros Hle. unfold ObjFunction_Targets, when.
  destruct (N.ltb_spec 1 (Shape (labels info) 1)) as [Hlt | _]; [lia | reflexivity].
Qed.

Lemma ObjFunction_Targets_fatal (info : MetaInfo) :
  (1 < Shape (labels info) 1)%N ->
  ObjFunction_Targets info =
  Abort (LogFatal "multioutput is not supported by current objective function").
Proof.
  intros Hlt. unfold ObjFunction_Targets, when.
  destruct (N.ltb_spec 1 (Shape (labels info) 1)) as [_ | Hle]; [reflexivity | lia].
Qed.

Lemma ObjFunction_Targets_abort_inv (info : MetaInfo) (e : FatalError) :
  ObjFunction_Targets info = Abort e -> (1 < Shape (labels info) 1)%N.
Proof.
  intros H. destruct (N.ltb_spec 1 (Shape (labels info) 1)) as [Hlt | Hle]; [exact Hlt |].
  rewrite (ObjFunction_Targets_one info Hle) in H. discriminate H.
Qed.

(** C1: the default [Targets] returns 1 when the label matrix has at most one
    column and ends in the fatal error "multioutput is not supported by
    current objective function" when it has more than one; a class that
    overrides [Targets] gets its own body instead. *)
Theorem Targets_default_one_or_fatal (o : ObjFunction) (info : MetaInfo) :
  (Targets_override (vptr o) = None ->
     ((Shape (labels info) 1 <= 1)%N -> Targets o info = Ret 1%N) /\
     ((1 < Shape (labels info) 1)%N ->
        Targets o info =
        Abort (LogFatal "multioutput is not supported by current objective function"))) /\
  (forall body, Targets_override (vptr o) = Some body ->
     Targets o info = body (this o) info).
Proof.
  split.
  - intros Hnone. rewrite (Targets_inherited o info Hnone). split.
    + apply ObjFunction_Targets_one.
    + apply ObjFunction_Targets_fatal.
  - intros body Hsome. unfold Targets. now rewrite Hsome.
Qed.

Lemma Targets_default_one_or_fatal_witness :
  (Targets_override (vptr (new_SquaredError tt)) = None /\
   (Shape (labels (labels_of 1 [f32_one])) 1 <= 1)%N /\
   Targets (new_SquaredError tt) (labels_of 1 [f32_one]) = Ret 1%N) /\
  ((1 < Shape (labels (labels_of 3 [f32_one; f32_two; f32_three])) 1)%N /\
   Targets (new_SquaredError tt) (labels_of 3 [f32_one; f32_two; f32_three]) =
   Abort (LogFatal "multioutput is not supported by current objective function")) /\
  Targets (new_MultiTarget tt) (labels_of 3 [f32_one; f32_two; f32_three]) = Ret 3%N.
Proof.
  split; [| split].
  - split; [reflexivity | split; [simpl; lia |]].
    apply (Targets_default_one_or_fatal (new_SquaredError tt) (labels_of 1 [f32_one]));
      [reflexivity | simpl; lia].
  - split; [simpl; lia |].
    apply (Targets_default_one_or_fatal (new_SquaredError tt)
             (labels_of 3 [f32_one; f32_two; f32_three]));
      [reflexivity | simpl; lia].
  - exact (proj2 (Targets_default_one_or_fatal (new_MultiTarget tt)
                    (labels_of 3 [f32_one; f32_two; f32_three])) _ eq_refl).
Defined.

(** C10: with a label matrix of zero columns the default [Targets] returns 1
    without error; it can only abort when the column count exceeds one. *)
Theorem Targets_default_zero_columns (o : ObjFunction) (info : MetaInfo) :
  Targets_override (vptr o) = None ->
  (Shape (labels info) 1 = 0%N -> Targets o info = Ret 1%N) /\
  (forall e, Targets o info = Abort e -> (1 < Shape (labels info) 1)%N).
Proof.
  intros Hnone. rewrite (Targets_inherited o info Hnone). split.
  - intros Hzero. apply ObjFunction_Targets_one. lia.
  - apply ObjFunction_Targets_abort_inv.
Qed.

Lemma Targets_default_zero_columns_witness :
  Targets_override (vptr (new_SquaredError tt)) = None /\
  Shape (labels (labels_of 0 [])) 1 = 0%N /\
  Targets (new_SquaredError tt) (labels_of 0 []) = Ret 1%N.
Proof.
  split; [reflexivity | split; [reflexivity |]].
  apply (Targets_default_zero_columns (new_SquaredError tt) (labels_of 0 []));
    reflexivity.
Defined.

(** ** The transforms *)

(** C6: the default [PredTransform] leaves every buffer as it is, the empty
    buffer included, so applying it twice is the same as applying it once. *)
Theorem PredTransform_default_unchanged_idempotent
    (o : ObjFunction) (io_preds : HostDeviceVector bst_float) :
  PredTransform_override (vptr o) = None ->
  PredTransform o io_preds = io_preds /\
  PredTransform o [] = [] /\
  PredTransform o (PredTransform o io_preds) = PredTransform o io_preds.
Proof.
  intros Hnone. rewrite !(PredTransform_inherited o _ Hnone).
  unfold ObjFunction_PredTransform. repeat split.
Qed.

Lemma PredTransform_default_unchanged_idempotent_witness :
  PredTransform_override (vptr (new_SquaredError tt)) = None /\
  PredTransform (new_SquaredError tt) [f32_minus_one; f32_two] = [f32_minus_one; f32_two] /\
  PredTransform (new_SquaredError tt) [] = [] /\
  PredTransform (new_SquaredError tt)
    (PredTransform (new_SquaredError tt) [f32_minus_one; f32_two]) =
  PredTransform (new_SquaredError tt) [f32_minus_one; f32_two].
Proof.
  split; [reflexivity |].
  apply (PredTransform_default_unchanged_idempotent
           (new_SquaredError tt) [f32_minus_one; f32_two]).
  reflexivity.
Defined.

(** C2: the default [EvalTransform] hands the buffer to [PredTransform] and
    does nothing else: the object is as before and the buffer is what
    [PredTransform] makes of it.  A class that overrides [PredTransform] alone
    therefore gets its override applied at evaluation time too. *)
Theorem EvalTransform_default_is_PredTransform
    (o : ObjFunction) (io_preds : HostDeviceVector bst_float) :
  EvalTransform_override (vptr o) = None ->
  EvalTransform o io_preds = (o, PredTransform o io_preds) /\
  (forall body, PredTransform_override (vptr o) = Some body ->
     snd (EvalTransform o io_preds) = body (this o) io_preds).
Proof.
  intros Hnone. rewrite (EvalTransform_inherited o io_preds Hnone).
  unfold ObjFunction_EvalTransform. split; [reflexivity |].
  intros body Hsome. simpl. apply PredTransform_overridden, Hsome.
Qed.

Lemma EvalTransform_default_is_PredTransform_witness :
  EvalTransform_override (vptr (new_AbsoluteOutput tt)) = None /\
  EvalTransform (new_AbsoluteOutput tt) [f32_minus_one; f32_two] =
    (new_AbsoluteOutput tt, PredTransform (new_AbsoluteOutput tt) [f32_minus_one; f32_two]) /\
  snd (EvalTransform (new_AbsoluteOutput tt) [f32_minus_one; f32_two]) = [f32_one; f32_two].
Proof.
  split; [reflexivity |].
  destruct (EvalTransform_default_is_PredTransform
              (new_AbsoluteOutput tt) [f32_minus_one; f32_two] eq_refl) as [Heq Hbody].
  split; [exact Heq |].
  exact (Hbody _ eq_refl).
Defined.

(** C5: the default [ProbToMargin] returns the base score it is given. *)
Theorem ProbToMargin_default_identity (base_score : bst_float) :
  ObjFunction_ProbToMargin base_score = base_score /\
  (forall o : ObjFunction,
     ProbToMargin_override (vptr o) = None -> ProbToMargin o base_score = base_score).
Proof.
  split; [reflexivity |].
  intros o Hnone. now rewrite (ProbToMargin_inherited o base_score Hnone).
Qed.

Lemma ProbToMargin_default_identity_witness :
  ProbToMargin_override (vptr (new_SquaredError tt)) = None /\
  ProbToMargin (new_SquaredError tt) f32_three = f32_three /\
  ProbToMargin (new_SquaredError tt) S754_nan = S754_nan.
Proof.
  split; [reflexivity |]. split.
  - exact (proj2 (ProbToMargin_default_identity f32_three) (new_SquaredError tt) eq_refl).
  - exact (proj2 (ProbToMargin_default_identity S754_nan) (new_SquaredError tt) eq_refl).
Defined.




(** ** The leaf update *)




(** ** The registry *)

Lemma ListAllNames_spec (reg : gmap string ObjFunctionReg) (k : string) :
  k ∈ ListAllNames reg <-> is_Some (reg !! k).
Proof.
  unfold ListAllNames. rewrite list_elem_of_fmap. split.
  - intros [[k' e] [-> Hin]]. apply elem_of_map_to_list in Hin. simpl. eauto.
  - intros [e He]. exists (k, e). split; [reflexivity |].
    now apply elem_of_map_to_list.
Qed.

Lemma Register_fresh (nm descr : string) (factory : unit -> ObjFunction)
    (reg : gmap string ObjFunctionReg) :
  reg !! nm = None ->
  exists reg',
    Register nm descr factory reg = Ret reg' /\
    reg' !! nm = Some {| name := nm; description := descr; body := factory |} /\
    (forall k, k <> nm -> reg' !! k = reg !! k).
Proof.
  intros Hnone. unfold Register. rewrite Hnone. eexists. split; [reflexivity |]. split.
  - apply lookup_insert_eq.
  - intros k Hk. now apply lookup_insert_ne.
Qed.

(** C9: registering under a name the registry already holds is an error
    raised by the registration itself; no registry comes back, so the entry
    that was there is not overwritten. *)
Theorem Register_duplicate_fails (nm descr : string) (factory : unit -> ObjFunction)
    (reg : gmap string ObjFunctionReg) :
  is_Some (reg !! nm) ->
  Register nm descr factory reg = Abort (AlreadyRegistered nm) /\
  (forall reg', Register nm descr factory reg <> Ret reg').
Proof.
  intros [e He]. unfold Register. rewrite He. split; [reflexivity | discriminate].
Qed.

Lemma Register_duplicate_fails_witness :
  is_Some (startup_registry !! "reg:squarederror") /\
  Register "reg:squarederror" "Squared error, again." new_MultiTarget startup_registry =
    Abort (AlreadyRegistered "reg:squarederror") /\
  (forall reg',
     Register "reg:squarederror" "Squared error, again." new_MultiTarget startup_registry <>
     Ret reg').
Proof.
  assert (Hreg : is_Some (startup_registry !! "reg:squarederror")).
  { eexists. vm_compute. reflexivity. }
  split; [exact Hreg |].
  exact (Register_duplicate_fails "reg:squarederror" "Squared error, again."
           new_MultiTarget startup_registry Hreg).
Defined.

(** ** Creating objectives *)

Lemma Create_unknown (nm : string) (tparam : GenericParameterPtr) (σ : Process) :
  registry σ !! nm = None ->
  Create nm tparam σ = Abort (UnknownObjective nm (ListAllNames (registry σ))).
Proof. intros Hnone. unfold Create. now rewrite Hnone. Qed.

(** One successful [Create]: the address is new, the object there is the
    factory's, bound to the context and unconfigured, and nothing else in the
    process has moved. *)
Lemma Create_known (nm : string) (tparam : GenericParameterPtr) (σ : Process)
    (e : ObjFunctionReg) :
  registry σ !! nm = Some e ->
  exists pobj σ',
    Create nm tparam σ = Ret (pobj, σ') /\
    heap σ !! pobj = None /\
    heap σ' !! pobj =
      Some {| object := bind_context (body e tt) tparam; configured := false |} /\
    (forall q, q <> pobj -> heap σ' !! q = heap σ !! q) /\
    registry σ' = registry σ.
Proof.
  intros Hsome. unfold Create. rewrite Hsome.
  eexists _, _. split; [reflexivity |]. simpl. repeat split.
  - apply not_elem_of_dom, is_fresh.
  - apply lookup_insert_eq.
  - intros q Hq. now apply lookup_insert_ne.
Qed.

(** Configuring one object leaves every other address alone. *)
Lemma Configure_at_frame (pobj q : positive) (args : Args) (σ σ' : Process) :
  Configure_at pobj args σ = Ret σ' ->
  q <> pobj ->
  heap σ' !! q = heap σ !! q.
Proof.
  unfold Configure_at. intros Hcfg Hq.
  destruct (heap σ !! pobj) as [i |]; [| discriminate Hcfg].
  destruct (Configure (object i) args) as [o' | err]; simpl in Hcfg; [| discriminate Hcfg].
  injection Hcfg as <-. simpl. now apply lookup_insert_ne.
Qed.

Lemma Configure_at_target (pobj : positive) (args : Args) (σ σ' : Process) :
  Configure_at pobj args σ = Ret σ' ->
  exists i o',
    heap σ !! pobj = Some i /\
    Configure (object i) args = Ret o' /\
    heap σ' !! pobj = Some {| object := o'; configured := true |}.
Proof.
  unfold Configure_at. intros Hcfg.
  destruct (heap σ !! pobj) as [i |]; [| discriminate Hcfg].
  destruct (Configure (object i) args) as [o' | err] eqn:Ho; simpl in Hcfg;
    [| discriminate Hcfg].
  injection Hcfg as <-. exists i, o'. simpl. repeat split; [exact Ho |].
  apply lookup_insert_eq.
Qed.

(** C8: [Create] on a name the registry does not hold fails with the lookup
    error that names the request and lists exactly the registered names.  On a
    registered name two calls give two objects at different, previously
    unused addresses, each the factory's object bound to the context and not
    yet configured; configuring either one leaves the other as it was. *)
Theorem Create_unknown_fails_known_gives_fresh_instances
    (nm : string) (tparam : GenericParameterPtr) (σ : Process) :
  (registry σ !! nm = None ->
     Create nm tparam σ = Abort (UnknownObjective nm (ListAllNames (registry σ))) /\
     (forall k, k ∈ ListAllNames (registry σ) <-> is_Some (registry σ !! k))) /\
  (forall e, registry σ !! nm = Some e ->
     exists p1 σ1 p2 σ2,
       Create nm tparam σ = Ret (p1, σ1) /\
       Create nm tparam σ1 = Ret (p2, σ2) /\
       heap σ !! p1 = None /\ heap σ !! p2 = None /\ p1 <> p2 /\
       heap σ2 !! p1 =
         Some {| object := bind_context (body e tt) tparam; configured := false |} /\
       heap σ2 !! p2 =
         Some {| object := bind_context (body e tt) tparam; configured := false |} /\
       (forall q, q <> p1 -> q <> p2 -> heap σ2 !! q = heap σ !! q) /\
       (forall args σ3, Configure_at p1 args σ2 = Ret σ3 ->
          heap σ3 !! p2 = heap σ2 !! p2 /\
          exists o', heap σ3 !! p1 = Some {| object := o'; configured := true |}) /\
       (forall args σ3, Configure_at p2 args σ2 = Ret σ3 ->
          heap σ3 !! p1 = heap σ2 !! p1 /\
          exists o', heap σ3 !! p2 = Some {| object := o'; configured := true |})).
Proof.
  split.
  - intros Hnone. split; [now apply Create_unknown |]. apply ListAllNames_spec.
  - intros e He.
    destruct (Create_known nm tparam σ e He) as (p1 & σ1 & Hc1 & Hnew1 & Hat1 & Hfr1 & Hreg1).
    assert (He1 : registry σ1 !! nm = Some e) by now rewrite Hreg1.
    destruct (Create_known nm tparam σ1 e He1) as (p2 & σ2 & Hc2 & Hnew2 & Hat2 & Hfr2 & Hreg2).
    assert (Hne : p1 <> p2).
    { intros ->. rewrite Hat1 in Hnew2. discriminate Hnew2. }
    assert (Hne' : p2 <> p1) by congruence.
    exists p1, σ1, p2, σ2.
    split; [exact Hc1 |]. split; [exact Hc2 |]. split; [exact Hnew1 |].
    split; [rewrite <- (Hfr1 p2 Hne'); exact Hnew2 |].
    split; [exact Hne |].
    split; [rewrite (Hfr2 p1 Hne); exact Hat1 |].
    split; [exact Hat2 |].
    split; [intros q Hq1 Hq2; rewrite (Hfr2 q Hq2); now apply Hfr1 |].
    split; intros args σ3 Hcfg; split.
    + exact (Configure_at_frame p1 p2 args σ2 σ3 Hcfg Hne').
    + destruct (Configure_at_target p1 args σ2 σ3 Hcfg) as (i & o' & _ & _ & Ho').
      now exists o'.
    + exact (Configure_at_frame p2 p1 args σ2 σ3 Hcfg Hne).
    + destruct (Configure_at_target p2 args σ2 σ3 Hcfg) as (i & o' & _ & _ & Ho').
      now exists o'.
Qed.

Lemma Create_unknown_fails_known_gives_fresh_instances_witness :
  (registry startup !! "rank:unheard" = None /\
   Create "rank:unheard" (Some 7%positive) startup =
     Abort (UnknownObjective "rank:unheard" ["reg:squarederror"; "reg:absoluteoutput"])) /\
  (is_Some (registry startup !! "reg:squarederror") /\
   exists p1 σ1 p2 σ2,
     Create "reg:squarederror" (Some 7%positive) startup = Ret (p1, σ1) /\
     Create "reg:squarederror" (Some 7%positive) σ1 = Ret (p2, σ2) /\
     p1 <> p2 /\
     heap σ2 !! p1 =
       Some {| object := bind_context (new_SquaredError tt) (Some 7%positive);
               configured := false |} /\
     heap σ2 !! p2 =
       Some {| object := bind_context (new_SquaredError tt) (Some 7%positive);
               configured := false |}).
Proof.
  split.
  - assert (Hnone : registry startup !! "rank:unheard" = None) by (vm_compute; reflexivity).
    split; [exact Hnone |].
    destruct (Create_unknown_fails_known_gives_fresh_instances
                "rank:unheard" (Some 7%positive) startup) as [Hunknown _].
    destruct (Hunknown Hnone) as [Hfail _]. rewrite Hfail.
    vm_compute. reflexivity.
  - assert (Hsome : registry startup !! "reg:squarederror" =
                    Some {| name := "reg:squarederror";
                            description := "Regression with squared error.";
                            body := new_SquaredError |}) by (vm_compute; reflexivity).
    split; [rewrite Hsome; eexists; reflexivity |].
    destruct (Create_unknown_fails_known_gives_fresh_instances
                "reg:squarederror" (Some 7%positive) startup) as [_ Hknown].
    destruct (Hknown _ Hsome)
      as (p1 & σ1 & p2 & σ2 & Hc1 & Hc2 & _ & _ & Hne & Hat1 & Hat2 & _).
    exists p1, σ1, p2, σ2. repeat split; assumption.
Defined.

(** ** The spec's squared-error scenario on the class above *)

Lemma SquaredError_GetGradient_length (preds : HostDeviceVector bst_float)
    (info : MetaInfo) (out : HostDeviceVector GradientPair) :
  SquaredError_GetGradient preds info = Ret out -> length out = length preds.
Proof.
  unfold SquaredError_GetGradient, when. intros H.
  destruct (negb (length (Values (labels info)) =? length preds)%nat);
    simpl in H; [discriminate H |].
  injection H as <-. apply length_imap.
Qed.

Example SquaredError_three_rows :
  SquaredError_GetGradient [f32_zero; f32_zero; f32_zero]
    (labels_of 1 [f32_one; f32_two; f32_three]) =
  Ret [ {| grad := SFopp f32_one; hess := f32_one |};
        {| grad := SFopp f32_two; hess := f32_one |};
        {| grad := SFopp f32_three; hess := f32_one |} ].
Proof. vm_compute. reflexivity. Qed.

(** ** Repeated evaluation transforms *)

Lemma iter_shift {A : Type} (f : A -> A) (n : nat) (x : A) :
  Nat.iter n f (f x) = f (Nat.iter n f x).
Proof. induction n as [| k IH]; [reflexivity |]. simpl. now rewrite IH. Qed.

(** X1: on a class that inherits [EvalTransform], any number of calls in a
    row leaves the object as it was and applies [PredTransform] that many
    times to the buffer; if [PredTransform] is inherited as well the buffer
    comes back unchanged however often the call is made. *)
Theorem EvalTransform_times_default
    (n : nat) (o : ObjFunction) (io_preds : HostDeviceVector bst_float) :
  EvalTransform_override (vptr o) = None ->
  EvalTransform_times n o io_preds = (o, Nat.iter n (PredTransform o) io_preds) /\
  (PredTransform_override (vptr o) = None ->
     EvalTransform_times n o io_preds = (o, io_preds)).
Proof.
  intros Hnone.
  assert (Hiter : forall k io, EvalTransform_times k o io = (o, Nat.iter k (PredTransform o) io)).
  { induction k as [| k IH]; intros io; [reflexivity |].
    simpl EvalTransform_times. rewrite (EvalTransform_inherited o io Hnone).
    unfold ObjFunction_EvalTransform. simpl fst; simpl snd.
    rewrite IH. simpl Nat.iter. now rewrite iter_shift. }
  split; [apply Hiter |].
  intros Hpred. rewrite Hiter. f_equal.
  induction n as [| k IH]; [reflexivity |].
  simpl. rewrite IH. now rewrite (PredTransform_inherited o io_preds Hpred).
Qed.

Lemma EvalTransform_times_default_witness :
  EvalTransform_override (vptr (new_AbsoluteOutput tt)) = None /\
  EvalTransform_times 3 (new_AbsoluteOutput tt) [f32_minus_one; f32_two] =
    (new_AbsoluteOutput tt,
     Nat.iter 3 (PredTransform (new_AbsoluteOutput tt)) [f32_minus_one; f32_two]) /\
  PredTransform_override (vptr (new_SquaredError tt)) = None /\
  EvalTransform_times 3 (new_SquaredError tt) [f32_minus_one; f32_two] =
    (new_SquaredError tt, [f32_minus_one; f32_two]).
Proof.
  split; [reflexivity |]. split.
  - apply (EvalTransform_times_default 3 (new_AbsoluteOutput tt) [f32_minus_one; f32_two]).
    reflexivity.
  - split; [reflexivity |].
    apply (EvalTransform_times_default 3 (new_SquaredError tt) [f32_minus_one; f32_two]);
      reflexivity.
Defined.

(** ** What the default [Targets] looks at *)

Lemma Configure_vptr (o o' : ObjFunction) (args : Args) :
  Configure o args = Ret o' -> vptr o' = vptr o.
Proof.
  unfold Configure. intros H.
  destruct (Configure_body (vptr o) (this o) args) as [t | err]; simpl in H;
    [| discriminate H].
  injection H as <-. reflexivity.
Qed.

(** X2: the default [Targets] looks at the column count of the labels and at
    nothing else: two objects that inherit it answer alike on any two inputs
    with the same column count, whatever their rows, label values, weights,
    groups or members, and a successful [Configure] on the object does not
    change the answer. *)
Theorem Targets_default_reads_only_column_count
    (o1 o2 : ObjFunction) (info1 info2 : MetaInfo) :
  Targets_override (vptr o1) = None ->
  Targets_override (vptr o2) = None ->
  Shape (labels info1) 1 = Shape (labels info2) 1 ->
  Targets o1 info1 = Targets o2 info2 /\
  (forall args o1', Configure o1 args = Ret o1' -> Targets o1' info1 = Targets o1 info1).
Proof.
  intros H1 H2 Hcols. split.
  - rewrite (Targets_inherited o1 info1 H1), (Targets_inherited o2 info2 H2).
    unfold ObjFunction_Targets. now rewrite Hcols.
  - intros args o1' Hcfg. pose proof (Configure_vptr o1 o1' args Hcfg) as Hv.
    rewrite (Targets_inherited o1 info1 H1).
    apply Targets_inherited. now rewrite Hv.
Qed.

Lemma Targets_default_reads_only_column_count_witness :
  Targets_override (vptr (new_SquaredError tt)) = None /\
  Targets_override (vptr (new_AbsoluteOutput tt)) = None /\
  Shape (labels (labels_of 3 [f32_one; f32_two; f32_three])) 1 =
    Shape (labels (labels_of 3 [])) 1 /\
  Targets (new_SquaredError tt) (labels_of 3 [f32_one; f32_two; f32_three]) =
    Targets (new_AbsoluteOutput tt) (labels_of 3 []).
Proof.
  split; [reflexivity | split; [reflexivity | split; [reflexivity |]]].
  apply (Targets_default_reads_only_column_count
           (new_SquaredError tt) (new_AbsoluteOutput tt)
           (labels_of 3 [f32_one; f32_two; f32_three]) (labels_of 3 []));
    reflexivity.
Defined.

(** ** The identifier declared by the registration macro *)

Lemma chars_append (s1 s2 : string) :
  Strings.String.list_ascii_of_string (String.append s1 s2) =
  (Strings.String.list_ascii_of_string s1 ++ Strings.String.list_ascii_of_string s2)%list.
Proof.
  induction s1 as [| c s1 IH]; [reflexivity |].
  change (String.append (String c s1) s2) with (String c (String.append s1 s2)).
  simpl. now rewrite IH.
Qed.

Lemma chars_inj (s1 s2 : string) :
  Strings.String.list_ascii_of_string s1 = Strings.String.list_ascii_of_string s2 -> s1 = s2.
Proof.
  intros H. rewrite <- (Strings.String.string_of_list_ascii_of_string s1),
    <- (Strings.String.string_of_list_ascii_of_string s2). now rewrite H.
Qed.

Lemma append_inv_tail (s1 s2 t : string) :
  String.append s1 t = String.append s2 t -> s1 = s2.
Proof.
  intros H. apply chars_inj.
  apply (f_equal Strings.String.list_ascii_of_string) in H.
  rewrite !chars_append in H.
  exact (app_inv_tail _ _ _ H).
Qed.

(** X3: two uses of the registration macro declare the same static
    identifier exactly when their [UniqueId] arguments are equal; the [Name]
    argument plays no part in the identifier. *)
Theorem XGBOOST_REGISTER_OBJECTIVE_identifier (u1 u2 n1 n2 : string) :
  identifier (XGBOOST_REGISTER_OBJECTIVE u1 n1) =
  identifier (XGBOOST_REGISTER_OBJECTIVE u2 n2) <-> u1 = u2.
Proof.
  unfold XGBOOST_REGISTER_OBJECTIVE. simpl identifier. split.
  - intros H.
    apply (inj (String.append "__make_")) in H.
    apply (inj (String.append "ObjFunctionReg")) in H.
    apply (inj (String.append "_")) in H.
    exact (append_inv_tail u1 u2 "__" H).
  - intros ->. reflexivity.
Qed.

Example XGBOOST_REGISTER_OBJECTIVE_LinearRegression :
  XGBOOST_REGISTER_OBJECTIVE "LinearRegression" "reg:squarederror" =
  {| identifier := "__make_ObjFunctionReg_LinearRegression__";
     registered_as := "reg:squarederror" |}.
Proof. reflexivity. Qed.
